(** * Shanghai take-home pay calculator: a shallow embedding

    Source: [Shanghai_take-home_pay_calculator.py].

    Number model.  The program computes on Python [float]s (and [int]s that
    are promoted to [float]).  The program is embedded twice, from the same
    source lines.

    - The main embedding reads every numeric value as an exact rational
      ([Q]): binary64 rounding, NaN and signed zeros are outside it.  The one
      infinite value the source writes down, the [float("inf")] bound of the
      last tax bracket, is kept as a constructor of its own.  Numeric
      equality is [Qeq] ([==]); two rationals that are [==] are the same
      number, possibly written with different fractions.  The properties
      stated on it are comparisons, orderings and equalities between
      expressions that the code evaluates in the same order.
    - Module [B64] is the program on IEEE binary64 ([PrimFloat.float]), the
      numbers the code really has.  It is used where rounding decides: where
      two expressions that are equal as rationals are evaluated in different
      orders.

    The month index is a Python [int] and is a [Z] here.  Optional arguments
    ([None] or a value) are [option]s.  The single [raise] of the program is
    an explicit error outcome. *)

From Stdlib Require Import QArith Qminmax Lqa ZArith Lia List String Bool.
From Stdlib Require Import Morphisms Setoid.
From Stdlib Require PrimFloat Uint63.
Import ListNotations.

Open Scope Q_scope.

(** ** Python built-ins used by the source *)

(** [a < b] on floats, as a boolean. *)
Definition Qltb (a b : Q) : bool := negb (Qle_bool b a).

(** [max(a, b)]: the first argument is kept unless the second is strictly
    greater. *)
Definition py_max (a b : Q) : Q := if Qltb a b then b else a.

(** [min(a, b)]: the first argument is kept unless the second is strictly
    smaller. *)
Definition py_min (a b : Q) : Q := if Qltb b a then b else a.

(** [sum(xs)]: left-to-right additions starting from [0]. *)
Definition py_sum (xs : list Q) : Q := fold_left Qplus xs 0.

(** ** Exceptions *)

Inductive exn : Type :=
| ValueError (msg : string).

Inductive outcome (A : Type) : Type :=
| Returns (a : A)
| Raises (e : exn).

Arguments Returns {A} a.
Arguments Raises {A} e.

Definition bind {A B : Type} (c : outcome A) (k : A -> outcome B) : outcome B :=
  match c with
  | Returns a => k a
  | Raises e => Raises e
  end.

Notation "x <- c ;; k" := (bind c (fun x => k))
  (at level 61, c at next level, right associativity).

(** ** Configuration (the [ShanghaiConfig] dataclass) *)

Module Bracket.

(** The value under ["up_to"]: a number, or [float("inf")]. *)
Inductive bound : Type :=
| Finite (u : Q)
| Inf.

(** One entry of [brackets]: the dict with keys ["up_to"], ["rate"] and
    ["quick"]. *)
Record t : Type := mk { up_to : bound; rate : Q; quick : Q }.

(** [x <= b["up_to"]]. *)
Definition within (x : Q) (u : bound) : bool :=
  match u with
  | Finite q => Qle_bool x q
  | Inf => true
  end.

(** [x * b["rate"] - b["quick"]]. *)
Definition formula (b : t) (x : Q) : Q := x * rate b - quick b.

End Bracket.

(** [brackets] is annotated [List[Dict]]; it is a list here (the dataclass
    default [None] is not a list and is not modelled). *)
Record ShanghaiConfig : Type := {
  si_floor : Q;
  si_cap : Q;
  hf_floor : Q;
  hf_cap : Q;
  pension_rate_emp : Q;
  medical_rate_emp : Q;
  unemployment_rate_emp : Q;
  default_hf_rate_emp : Q;
  standard_deduction_monthly : Q;
  brackets : list Bracket.t
}.

Definition default_brackets : list Bracket.t :=
  [ Bracket.mk (Bracket.Finite 36000) 0.03 0;
    Bracket.mk (Bracket.Finite 144000) 0.10 2520;
    Bracket.mk (Bracket.Finite 300000) 0.20 16920;
    Bracket.mk (Bracket.Finite 420000) 0.25 31920;
    Bracket.mk (Bracket.Finite 660000) 0.30 52920;
    Bracket.mk (Bracket.Finite 960000) 0.35 85920;
    Bracket.mk Bracket.Inf 0.45 181920 ].

(** [ShanghaiConfig(brackets=[...])]: every other field takes the default
    written in the dataclass. *)
Definition default_config : ShanghaiConfig := {|
  si_floor := 7384;
  si_cap := 36921;
  hf_floor := 2690;
  hf_cap := 36921;
  pension_rate_emp := 0.08;
  medical_rate_emp := 0.02;
  unemployment_rate_emp := 0.005;
  default_hf_rate_emp := 0.07;
  standard_deduction_monthly := 5000;
  brackets := default_brackets
|}.

(** [ShanghaiConfig(brackets=bs)]: the constructor call with every other
    field left to its dataclass default. *)
Definition config_with_brackets (bs : list Bracket.t) : ShanghaiConfig := {|
  si_floor := 7384;
  si_cap := 36921;
  hf_floor := 2690;
  hf_cap := 36921;
  pension_rate_emp := 0.08;
  medical_rate_emp := 0.02;
  unemployment_rate_emp := 0.005;
  default_hf_rate_emp := 0.07;
  standard_deduction_monthly := 5000;
  brackets := bs
|}.

(** ** Contribution calculators *)

Definition _clamp (x lo hi : Q) : Q := py_max lo (py_min hi x).

(** [v if v is not None else d]. *)
Definition or_else (v : option Q) (d : Q) : Q :=
  match v with
  | Some x => x
  | None => d
  end.

Module SI.

(** The dict returned by [calc_employee_social]. *)
Record t : Type := mk {
  base : Q;
  pension : Q;
  medical : Q;
  unemployment : Q;
  total : Q
}.

End SI.

Module HF.

(** The dict returned by [calc_housing_fund]. *)
Record t : Type := mk { rate : Q; base : Q; amount : Q }.

End HF.

Definition calc_employee_social (gross : Q) (cfg : ShanghaiConfig)
    (si_base : option Q) : SI.t :=
  let base := _clamp (or_else si_base gross) (si_floor cfg) (si_cap cfg) in
  let pension := base * pension_rate_emp cfg in
  let medical := base * medical_rate_emp cfg in
  let unemployment := base * unemployment_rate_emp cfg in
  {| SI.base := base;
     SI.pension := pension;
     SI.medical := medical;
     SI.unemployment := unemployment;
     SI.total := pension + medical + unemployment |}.

Definition calc_housing_fund (gross : Q) (cfg : ShanghaiConfig)
    (hf_rate hf_base : option Q) : HF.t :=
  let rate := match hf_rate with
              | None => default_hf_rate_emp cfg
              | Some r => r
              end in
  let base := _clamp (or_else hf_base gross) (hf_floor cfg) (hf_cap cfg) in
  {| HF.rate := rate; HF.base := base; HF.amount := base * rate |}.

(** ** Progressive tax function *)

(** The [for b in cfg.brackets] loop, with the statement after the loop as
    the result on an exhausted list. *)
Fixpoint scan_brackets (t : Q) (bs : list Bracket.t) : Q :=
  match bs with
  | [] => t * 0.45 - 181920
  | b :: rest =>
      if Bracket.within t (Bracket.up_to b)
      then Bracket.formula b t
      else scan_brackets t rest
  end.

Definition _tax_on_cumulative_taxable (cum_taxable : Q) (cfg : ShanghaiConfig) : Q :=
  let t := py_max 0 cum_taxable in
  scan_brackets t (brackets cfg).

(** ** Cumulative withholding engine *)

Module Locals.

(** The local variables of [takehome_shanghai] once line 125 has run. *)
Record t : Type := mk {
  si : SI.t;
  hf : HF.t;
  cum_income : Q;
  prev_si_total : Q;
  prev_hf_total : Q;
  cum_si : Q;
  cum_hf : Q;
  cum_standard : Q;
  cum_special : Q;
  cum_taxable : Q;
  cum_tax_payable : Q;
  tax_this_month : Q;
  takehome : Q
}.

End Locals.

Module Assumptions.

(** The dict under ["assumptions"]. *)
Record t : Type := mk {
  standard_deduction_monthly : Q;
  special_deductions_monthly : Q;
  si_base_used_this_month : Q;
  hf_base_used_this_month : Q
}.

End Assumptions.

Module Result.

(** The dict returned by [takehome_shanghai]. *)
Record t : Type := mk {
  month_index : Z;
  gross_salary : Q;
  take_home : Q;
  tax_this_month : Q;
  cumulative_tax_payable : Q;
  pre_tax_deductions_this_month : Q;
  social_insurance : SI.t;
  housing_fund : HF.t;
  cumulative_taxable_income : Q;
  assumptions : Assumptions.t
}.

End Result.

Definition length_error : exn :=
  ValueError "cumulative_prev_pay length must equal month_index - 1".

(** [cfg or default_config()]: a dataclass instance is truthy, so only [None]
    takes the default. *)
Definition cfg_or_default (cfg : option ShanghaiConfig) : ShanghaiConfig :=
  match cfg with
  | Some c => c
  | None => default_config
  end.

(** Lines 103-114: the year-to-date income and the prior months' contribution
    totals, as the triple [(cum_income, prev_si_total, prev_hf_total)]. *)
Definition history (gross_salary : Q) (month_index : Z) (cfg : ShanghaiConfig)
    (si_base hf_rate hf_base : option Q)
    (cumulative_prev_pay : option (list Q)) : outcome (Q * Q * Q) :=
  match cumulative_prev_pay with
  | None =>
      let prev_m := Z.max 0 (month_index - 1) in
      let cum_income := gross_salary * inject_Z month_index in
      let prev_si_total :=
        SI.total (calc_employee_social gross_salary cfg si_base) * inject_Z prev_m in
      let prev_hf_total :=
        HF.amount (calc_housing_fund gross_salary cfg hf_rate hf_base) * inject_Z prev_m in
      Returns (cum_income, prev_si_total, prev_hf_total)
  | Some prev_pay =>
      if negb (Z.of_nat (List.length prev_pay) =? month_index - 1)%Z
      then Raises length_error
      else
        let cum_income := py_sum prev_pay + gross_salary in
        let prev_si_total :=
          py_sum (map (fun s => SI.total (calc_employee_social s cfg si_base)) prev_pay) in
        let prev_hf_total :=
          py_sum (map (fun s => HF.amount (calc_housing_fund s cfg hf_rate hf_base)) prev_pay) in
        Returns (cum_income, prev_si_total, prev_hf_total)
  end.

(** Lines 96-125 of [takehome_shanghai]: everything before the [return]. *)
Definition takehome_locals (gross_salary : Q) (month_index : Z)
    (cfg : option ShanghaiConfig) (special_deductions_monthly : Q)
    (si_base hf_rate hf_base : option Q)
    (cumulative_prev_pay : option (list Q)) (prev_withheld_tax : Q)
    : outcome Locals.t :=
  let cfg := cfg_or_default cfg in
  let si := calc_employee_social gross_salary cfg si_base in
  let hf := calc_housing_fund gross_salary cfg hf_rate hf_base in
  h <- history gross_salary month_index cfg si_base hf_rate hf_base
         cumulative_prev_pay ;;
  let '(cum_income, prev_si_total, prev_hf_total) := h in
  let cum_si := prev_si_total + SI.total si in
  let cum_hf := prev_hf_total + HF.amount hf in
  let cum_standard := standard_deduction_monthly cfg * inject_Z month_index in
  let cum_special := special_deductions_monthly * inject_Z month_index in
  let cum_taxable := cum_income - cum_si - cum_hf - cum_standard - cum_special in
  let cum_tax_payable := _tax_on_cumulative_taxable cum_taxable cfg in
  let tax_this_month := py_max 0 (cum_tax_payable - prev_withheld_tax) in
  let takehome := gross_salary - SI.total si - HF.amount hf - tax_this_month in
  Returns {| Locals.si := si;
             Locals.hf := hf;
             Locals.cum_income := cum_income;
             Locals.prev_si_total := prev_si_total;
             Locals.prev_hf_total := prev_hf_total;
             Locals.cum_si := cum_si;
             Locals.cum_hf := cum_hf;
             Locals.cum_standard := cum_standard;
             Locals.cum_special := cum_special;
             Locals.cum_taxable := cum_taxable;
             Locals.cum_tax_payable := cum_tax_payable;
             Locals.tax_this_month := tax_this_month;
             Locals.takehome := takehome |}.

(** Lines 127-143: the returned dict, built from the locals. *)
Definition result_of_locals (gross_salary : Q) (month_index : Z)
    (cfg : ShanghaiConfig) (special_deductions_monthly : Q)
    (l : Locals.t) : Result.t :=
  {| Result.month_index := month_index;
     Result.gross_salary := gross_salary;
     Result.take_home := Locals.takehome l;
     Result.tax_this_month := Locals.tax_this_month l;
     Result.cumulative_tax_payable := Locals.cum_tax_payable l;
     Result.pre_tax_deductions_this_month :=
       SI.total (Locals.si l) + HF.amount (Locals.hf l);
     Result.social_insurance := Locals.si l;
     Result.housing_fund := Locals.hf l;
     Result.cumulative_taxable_income := py_max 0 (Locals.cum_taxable l);
     Result.assumptions :=
       {| Assumptions.standard_deduction_monthly := standard_deduction_monthly cfg;
          Assumptions.special_deductions_monthly := special_deductions_monthly;
          Assumptions.si_base_used_this_month := SI.base (Locals.si l);
          Assumptions.hf_base_used_this_month := HF.base (Locals.hf l) |} |}.

Definition takehome_shanghai (gross_salary : Q) (month_index : Z)
    (cfg : option ShanghaiConfig) (special_deductions_monthly : Q)
    (si_base hf_rate hf_base : option Q)
    (cumulative_prev_pay : option (list Q)) (prev_withheld_tax : Q)
    : outcome Result.t :=
  l <- takehome_locals gross_salary month_index cfg special_deductions_monthly
         si_base hf_rate hf_base cumulative_prev_pay prev_withheld_tax ;;
  Returns (result_of_locals gross_salary month_index (cfg_or_default cfg)
             special_deductions_monthly l).

(** ** Numeric equality of records

    Two records are equivalent when their numeric fields are [==] and their
    other fields are equal. *)

Definition SI_equiv (a b : SI.t) : Prop :=
  SI.base a == SI.base b /\ SI.pension a == SI.pension b /\
  SI.medical a == SI.medical b /\ SI.unemployment a == SI.unemployment b /\
  SI.total a == SI.total b.

Definition HF_equiv (a b : HF.t) : Prop :=
  HF.rate a == HF.rate b /\ HF.base a == HF.base b /\
  HF.amount a == HF.amount b.



(** The base a calculator selects before clamping. *)
Definition selected_base (override : option Q) (gross : Q) : Q :=
  or_else override gross.

(** Consecutive pairs of a list, in order. *)
Fixpoint adjacent {A : Type} (l : list A) : list (A * A) :=
  match l with
  | a :: (b :: _) as rest => (a, b) :: adjacent rest
  | _ => []
  end.

(** The two brackets that meet at a bound give the same tax there. *)
Definition continuous_at (p : Bracket.t * Bracket.t) : Prop :=
  exists u,
    Bracket.up_to (fst p) = Bracket.Finite u /\
    Bracket.formula (fst p) u == Bracket.formula (snd p) u.

(** The figures of the 30000 scenario, read off one outcome. *)
Definition scenario_30000 (o : outcome Result.t) : Prop :=
  exists r,
    o = Returns r /\
    SI.total (Result.social_insurance r) == 3150 /\
    HF.amount (Result.housing_fund r) == 2100 /\
    Result.cumulative_taxable_income r == 19750 /\
    Result.tax_this_month r == 592.5 /\
    Result.take_home r == 24157.5 /\
    Result.take_home r
    == Result.gross_salary r - SI.total (Result.social_insurance r)
       - HF.amount (Result.housing_fund r) - Result.tax_this_month r.



(** * The same program on binary64

    The definitions above read every float as an exact rational.  Module
    [B64] is the program again with the numbers the code has: IEEE binary64
    ([PrimFloat.float], round to nearest even), for the statements that
    rounding decides.  Each definition follows the same source lines as its
    namesake above.

    [max], [min] and the comparisons are the float ones; a decimal literal is
    the nearest binary64, as Python reads it; an [int] operand ([month_index],
    [prev_m], the bounds and quick deductions of the table) is converted to
    float where the source mixes it with a float.  [sum] adds from left to
    right starting from [0]. *)

Module B64.

Import PrimFloat.
Local Open Scope float_scope.

(** [float(n)] for an [int] below 2^63 in absolute value. *)
Definition of_int (n : Z) : float :=
  match n with
  | Z0 => 0
  | Zpos _ => PrimFloat.of_uint63 (Uint63.of_Z n)
  | Zneg p => - PrimFloat.of_uint63 (Uint63.of_Z (Zpos p))
  end.

Definition py_max (a b : float) : float := if a <? b then b else a.

Definition py_min (a b : float) : float := if b <? a then b else a.

Definition py_sum (xs : list float) : float := fold_left PrimFloat.add xs 0.

Definition or_else (v : option float) (d : float) : float :=
  match v with
  | Some x => x
  | None => d
  end.

Module Bracket.

Record t : Type := mk { up_to : float; rate : float; quick : float }.

Definition formula (b : t) (x : float) : float := x * rate b - quick b.

End Bracket.

Record ShanghaiConfig : Type := {
  si_floor : float;
  si_cap : float;
  hf_floor : float;
  hf_cap : float;
  pension_rate_emp : float;
  medical_rate_emp : float;
  unemployment_rate_emp : float;
  default_hf_rate_emp : float;
  standard_deduction_monthly : float;
  brackets : list Bracket.t
}.

Definition default_brackets : list Bracket.t :=
  [ Bracket.mk 36000 0.03 0;
    Bracket.mk 144000 0.10 2520;
    Bracket.mk 300000 0.20 16920;
    Bracket.mk 420000 0.25 31920;
    Bracket.mk 660000 0.30 52920;
    Bracket.mk 960000 0.35 85920;
    Bracket.mk PrimFloat.infinity 0.45 181920 ].

Definition default_config : ShanghaiConfig := {|
  si_floor := 7384;
  si_cap := 36921;
  hf_floor := 2690;
  hf_cap := 36921;
  pension_rate_emp := 0.08;
  medical_rate_emp := 0.02;
  unemployment_rate_emp := 0.005;
  default_hf_rate_emp := 0.07;
  standard_deduction_monthly := 5000;
  brackets := default_brackets
|}.

Definition _clamp (x lo hi : float) : float := py_max lo (py_min hi x).

Module SI.

Record t : Type := mk {
  base : float;
  pension : float;
  medical : float;
  unemployment : float;
  total : float
}.

End SI.

Module HF.

Record t : Type := mk { rate : float; base : float; amount : float }.

End HF.

Definition calc_employee_social (gross : float) (cfg : ShanghaiConfig)
    (si_base : option float) : SI.t :=
  let base := _clamp (or_else si_base gross) (si_floor cfg) (si_cap cfg) in
  let pension := base * pension_rate_emp cfg in
  let medical := base * medical_rate_emp cfg in
  let unemployment := base * unemployment_rate_emp cfg in
  {| SI.base := base;
     SI.pension := pension;
     SI.medical := medical;
     SI.unemployment := unemployment;
     SI.total := pension + medical + unemployment |}.

Definition calc_housing_fund (gross : float) (cfg : ShanghaiConfig)
    (hf_rate hf_base : option float) : HF.t :=
  let rate := match hf_rate with
              | None => default_hf_rate_emp cfg
              | Some r => r
              end in
  let base := _clamp (or_else hf_base gross) (hf_floor cfg) (hf_cap cfg) in
  {| HF.rate := rate; HF.base := base; HF.amount := base * rate |}.

Fixpoint scan_brackets (t : float) (bs : list Bracket.t) : float :=
  match bs with
  | [] => t * 0.45 - 181920
  | b :: rest =>
      if t <=? Bracket.up_to b
      then Bracket.formula b t
      else scan_brackets t rest
  end.

Definition _tax_on_cumulative_taxable (cum_taxable : float)
    (cfg : ShanghaiConfig) : float :=
  let t := py_max 0 cum_taxable in
  scan_brackets t (brackets cfg).

Module Locals.

Record t : Type := mk {
  si : SI.t;
  hf : HF.t;
  cum_income : float;
  prev_si_total : float;
  prev_hf_total : float;
  cum_si : float;
  cum_hf : float;
  cum_standard : float;
  cum_special : float;
  cum_taxable : float;
  cum_tax_payable : float;
  tax_this_month : float;
  takehome : float
}.

End Locals.

Module Assumptions.

Record t : Type := mk {
  standard_deduction_monthly : float;
  special_deductions_monthly : float;
  si_base_used_this_month : float;
  hf_base_used_this_month : float
}.

End Assumptions.

Module Result.

Record t : Type := mk {
  month_index : Z;
  gross_salary : float;
  take_home : float;
  tax_this_month : float;
  cumulative_tax_payable : float;
  pre_tax_deductions_this_month : float;
  social_insurance : SI.t;
  housing_fund : HF.t;
  cumulative_taxable_income : float;
  assumptions : Assumptions.t
}.

End Result.

Definition cfg_or_default (cfg : option ShanghaiConfig) : ShanghaiConfig :=
  match cfg with
  | Some c => c
  | None => default_config
  end.

(** Lines 103-114. *)
Definition history (gross_salary : float) (month_index : Z)
    (cfg : ShanghaiConfig) (si_base hf_rate hf_base : option float)
    (cumulative_prev_pay : option (list float))
    : outcome (float * float * float) :=
  match cumulative_prev_pay with
  | None =>
      let prev_m := Z.max 0 (month_index - 1) in
      let cum_income := gross_salary * of_int month_index in
      let prev_si_total :=
        SI.total (calc_employee_social gross_salary cfg si_base) * of_int prev_m in
      let prev_hf_total :=
        HF.amount (calc_housing_fund gross_salary cfg hf_rate hf_base) * of_int prev_m in
      Returns (cum_income, prev_si_total, prev_hf_total)
  | Some prev_pay =>
      if negb (Z.of_nat (List.length prev_pay) =? month_index - 1)%Z
      then Raises length_error
      else
        let cum_income := py_sum prev_pay + gross_salary in
        let prev_si_total :=
          py_sum (map (fun s => SI.total (calc_employee_social s cfg si_base)) prev_pay) in
        let prev_hf_total :=
          py_sum (map (fun s => HF.amount (calc_housing_fund s cfg hf_rate hf_base)) prev_pay) in
        Returns (cum_income, prev_si_total, prev_hf_total)
  end.

(** Lines 96-125. *)
Definition takehome_locals (gross_salary : float) (month_index : Z)
    (cfg : option ShanghaiConfig) (special_deductions_monthly : float)
    (si_base hf_rate hf_base : option float)
    (cumulative_prev_pay : option (list float)) (prev_withheld_tax : float)
    : outcome Locals.t :=
  let cfg := cfg_or_default cfg in
  let si := calc_employee_social gross_salary cfg si_base in
  let hf := calc_housing_fund gross_salary cfg hf_rate hf_base in
  h <- history gross_salary month_index cfg si_base hf_rate hf_base
         cumulative_prev_pay ;;
  let '(cum_income, prev_si_total, prev_hf_total) := h in
  let cum_si := prev_si_total + SI.total si in
  let cum_hf := prev_hf_total + HF.amount hf in
  let cum_standard := standard_deduction_monthly cfg * of_int month_index in
  let cum_special := special_deductions_monthly * of_int month_index in
  let cum_taxable := cum_income - cum_si - cum_hf - cum_standard - cum_special in
  let cum_tax_payable := _tax_on_cumulative_taxable cum_taxable cfg in
  let tax_this_month := py_max 0 (cum_tax_payable - prev_withheld_tax) in
  let takehome := gross_salary - SI.total si - HF.amount hf - tax_this_month in
  Returns {| Locals.si := si;
             Locals.hf := hf;
             Locals.cum_income := cum_income;
             Locals.prev_si_total := prev_si_total;
             Locals.prev_hf_total := prev_hf_total;
             Locals.cum_si := cum_si;
             Locals.cum_hf := cum_hf;
             Locals.cum_standard := cum_standard;
             Locals.cum_special := cum_special;
             Locals.cum_taxable := cum_taxable;
             Locals.cum_tax_payable := cum_tax_payable;
             Locals.tax_this_month := tax_this_month;
             Locals.takehome := takehome |}.

(** Lines 127-143. *)
Definition result_of_locals (gross_salary : float) (month_index : Z)
    (cfg : ShanghaiConfig) (special_deductions_monthly : float)
    (l : Locals.t) : Result.t :=
  {| Result.month_index := month_index;
     Result.gross_salary := gross_salary;
     Result.take_home := Locals.takehome l;
     Result.tax_this_month := Locals.tax_this_month l;
     Result.cumulative_tax_payable := Locals.cum_tax_payable l;
     Result.pre_tax_deductions_this_month :=
       SI.total (Locals.si l) + HF.amount (Locals.hf l);
     Result.social_insurance := Locals.si l;
     Result.housing_fund := Locals.hf l;
     Result.cumulative_taxable_income := py_max 0 (Locals.cum_taxable l);
     Result.assumptions :=
       {| Assumptions.standard_deduction_monthly := standard_deduction_monthly cfg;
          Assumptions.special_deductions_monthly := special_deductions_monthly;
          Assumptions.si_base_used_this_month := SI.base (Locals.si l);
          Assumptions.hf_base_used_this_month := HF.base (Locals.hf l) |} |}.

Definition takehome_shanghai (gross_salary : float) (month_index : Z)
    (cfg : option ShanghaiConfig) (special_deductions_monthly : float)
    (si_base hf_rate hf_base : option float)
    (cumulative_prev_pay : option (list float)) (prev_withheld_tax : float)
    : outcome Result.t :=
  l <- takehome_locals gross_salary month_index cfg special_deductions_monthly
         si_base hf_rate hf_base cumulative_prev_pay prev_withheld_tax ;;
  Returns (result_of_locals gross_salary month_index (cfg_or_default cfg)
             special_deductions_monthly l).

(** The distance between the two formulas that meet at a bound. *)
Definition gap (p : Bracket.t * Bracket.t) : float :=
  let u := Bracket.up_to (fst p) in
  PrimFloat.abs (Bracket.formula (fst p) u - Bracket.formula (snd p) u).

End B64.

(** * Properties *)

(** ** Comparisons and the built-ins *)

Lemma Qltb_true (a b : Q) : Qltb a b = true <-> a < b.
Proof.
  unfold Qltb. rewrite negb_true_iff, <- not_true_iff_false, Qle_bool_iff.
  split; intro H; [apply Qnot_le_lt | apply Qlt_not_le]; exact H.
Qed.

Lemma Qltb_false (a b : Q) : Qltb a b = false <-> b <= a.
Proof.
  unfold Qltb. rewrite negb_false_iff. apply Qle_bool_iff.
Qed.

Lemma Qle_bool_false (a b : Q) : Qle_bool a b = false <-> b < a.
Proof.
  rewrite <- not_true_iff_false, Qle_bool_iff.
  split; intro H; [apply Qnot_le_lt | apply Qlt_not_le]; exact H.
Qed.

(** Case analysis on the boolean comparisons of the goal, innermost first,
    leaving the order facts in the context. *)
Ltac no_cmp t :=
  lazymatch t with
  | context [Qltb _ _] => fail
  | context [Qle_bool _ _] => fail
  | _ => idtac
  end.

Ltac cmp_case :=
  match goal with
  | |- context [Qltb ?a ?b] =>
      no_cmp a; no_cmp b;
      let E := fresh "E" in
      destruct (Qltb a b) eqn:E;
      [apply Qltb_true in E | apply Qltb_false in E]
  | |- context [Qle_bool ?a ?b] =>
      no_cmp a; no_cmp b;
      let E := fresh "E" in
      destruct (Qle_bool a b) eqn:E;
      [apply Qle_bool_iff in E | apply Qle_bool_false in E]
  end.

Ltac cmp_cases := repeat cmp_case.

Lemma py_max_Qmax (a b : Q) : py_max a b == Qmax a b.
Proof.
  unfold py_max. cmp_cases.
  - symmetry. apply Q.max_r. apply Qlt_le_weak. exact E.
  - symmetry. apply Q.max_l. exact E.
Qed.

Lemma py_min_Qmin (a b : Q) : py_min a b == Qmin a b.
Proof.
  unfold py_min. cmp_cases.
  - symmetry. apply Q.min_r. apply Qlt_le_weak. exact E.
  - symmetry. apply Q.min_l. exact E.
Qed.

Lemma py_max_lower (a b : Q) : a <= py_max a b.
Proof. unfold py_max. cmp_cases; lra. Qed.

Lemma py_max_mono (a x y : Q) : x <= y -> py_max a x <= py_max a y.
Proof. intro H. unfold py_max. cmp_cases; lra. Qed.

#[export] Instance py_max_proper : Proper (Qeq ==> Qeq ==> Qeq) py_max.
Proof.
  intros a a' Ha b b' Hb. unfold py_max. cmp_cases; lra.
Qed.

Lemma clamp_below (x lo hi : Q) : lo <= hi -> x < lo -> _clamp x lo hi == lo.
Proof. intros H1 H2. unfold _clamp, py_max, py_min. cmp_cases; lra. Qed.

Lemma clamp_above (x lo hi : Q) : lo <= hi -> hi < x -> _clamp x lo hi == hi.
Proof. intros H1 H2. unfold _clamp, py_max, py_min. cmp_cases; lra. Qed.

Lemma clamp_inside (x lo hi : Q) : lo <= x -> x <= hi -> _clamp x lo hi == x.
Proof. intros H1 H2. unfold _clamp, py_max, py_min. cmp_cases; lra. Qed.

(** ** Contribution bases *)

(** C5.  In a configuration whose floors do not exceed its caps, the base
    used by the social-insurance calculator and by the housing-fund
    calculator is the selected base (the override if given, else the gross
    salary) clamped into the floor-to-cap range: the floor when the
    selected base is below it, the cap when above it, the selected base
    itself when it lies between them, ends included. *)
Theorem contribution_base_clamped
    (cfg : ShanghaiConfig) (gross : Q) (si_base hf_rate hf_base : option Q) :
  si_floor cfg <= si_cap cfg ->
  hf_floor cfg <= hf_cap cfg ->
  let sb := selected_base si_base gross in
  let hb := selected_base hf_base gross in
  let si := calc_employee_social gross cfg si_base in
  let hf := calc_housing_fund gross cfg hf_rate hf_base in
  (sb < si_floor cfg -> SI.base si == si_floor cfg) /\
  (si_cap cfg < sb -> SI.base si == si_cap cfg) /\
  (si_floor cfg <= sb /\ sb <= si_cap cfg -> SI.base si == sb) /\
  (hb < hf_floor cfg -> HF.base hf == hf_floor cfg) /\
  (hf_cap cfg < hb -> HF.base hf == hf_cap cfg) /\
  (hf_floor cfg <= hb /\ hb <= hf_cap cfg -> HF.base hf == hb).
Proof.
  intros Hsi Hhf. cbn -[_clamp]. unfold selected_base.
  repeat split; intros H.
  - apply clamp_below; assumption.
  - apply clamp_above; assumption.
  - apply clamp_inside; apply H.
  - apply clamp_below; assumption.
  - apply clamp_above; assumption.
  - apply clamp_inside; apply H.
Qed.

(** At the default configuration: a gross salary of 1000 is raised to both
    floors, and an override of 50000 is cut to the cap. *)
Lemma contribution_base_clamped_witness :
  si_floor default_config <= si_cap default_config /\
  hf_floor default_config <= hf_cap default_config /\
  SI.base (calc_employee_social 1000 default_config None) == 7384 /\
  HF.base (calc_housing_fund 1000 default_config None None) == 2690 /\
  SI.base (calc_employee_social 1000 default_config (Some 50000)) == 36921.
Proof.
  assert (H1 : si_floor default_config <= si_cap default_config)
    by (vm_compute; discriminate).
  assert (H2 : hf_floor default_config <= hf_cap default_config)
    by (vm_compute; discriminate).
  split; [exact H1 | split; [exact H2 | ]].
  pose proof (contribution_base_clamped default_config 1000 None None None H1 H2) as A.
  pose proof (contribution_base_clamped default_config 1000 (Some 50000) None None H1 H2) as B.
  cbv zeta in A, B.
  destruct A as (A1 & _ & _ & A4 & _).
  destruct B as (_ & B2 & _).
  split; [apply A1; reflexivity | split; [apply A4; reflexivity | apply B2; reflexivity]].
Defined.

(** ** Progressive tax function *)



(** C8.  Under the default configuration the cumulative tax payable on a
    cumulative taxable income that is zero or negative is exactly zero. *)
Theorem no_tax_without_taxable_income (cum_taxable : Q) :
  cum_taxable <= 0 ->
  _tax_on_cumulative_taxable cum_taxable default_config == 0.
Proof.
  intro H. unfold _tax_on_cumulative_taxable.
  assert (E : py_max 0 cum_taxable = 0).
  { unfold py_max. cmp_cases; [lra | reflexivity]. }
  rewrite E. reflexivity.
Qed.

Lemma no_tax_without_taxable_income_witness :
  -12345.5 <= 0 /\ _tax_on_cumulative_taxable (-12345.5) default_config == 0.
Proof.
  split.
  - vm_compute; discriminate.
  - apply (no_tax_without_taxable_income (-12345.5)). vm_compute; discriminate.
Defined.

(** Exact decimals: in the default bracket table, every two neighbouring
    brackets agree at the bound where they meet: the lower bracket's bound
    times its rate minus its quick deduction is the same number as that
    bound times the next bracket's rate minus the next bracket's quick
    deduction.  The table has six such boundaries. *)
Theorem default_brackets_continuous :
  List.length (adjacent (brackets default_config)) = 6%nat /\
  Forall continuous_at (adjacent (brackets default_config)).
Proof.
  split; [reflexivity | ].
  cbn [brackets default_config default_brackets adjacent].
  repeat constructor; eexists; (split; [reflexivity | vm_compute; reflexivity]).
Qed.

Lemma scan_default_brackets_mono (x y : Q) :
  x <= y ->
  scan_brackets x default_brackets <= scan_brackets y default_brackets.
Proof.
  intro H. unfold default_brackets.
  cbn [scan_brackets Bracket.within Bracket.up_to Bracket.formula
       Bracket.rate Bracket.quick].
  repeat (cmp_case; cbv iota);
    unfold Bracket.formula; cbn [Bracket.rate Bracket.quick]; lra.
Qed.

(** C7.  Under the default bracket table the progressive tax function is
    monotone: a larger (or equal) cumulative taxable income never has a
    smaller cumulative tax payable. *)
Theorem tax_monotone (x y : Q) :
  x <= y ->
  _tax_on_cumulative_taxable x default_config
  <= _tax_on_cumulative_taxable y default_config.
Proof.
  intro H. unfold _tax_on_cumulative_taxable.
  apply scan_default_brackets_mono. apply py_max_mono. exact H.
Qed.

(** Across the first bracket boundary: 36000 against 36001. *)
Lemma tax_monotone_witness :
  36000 <= 36001 /\
  _tax_on_cumulative_taxable 36000 default_config
  <= _tax_on_cumulative_taxable 36001 default_config.
Proof.
  split.
  - vm_compute; discriminate.
  - apply (tax_monotone 36000 36001). vm_compute; discriminate.
Defined.

(** ** The engine *)



Section Engine.

Variables (gross_salary : Q) (month_index : Z) (cfg : option ShanghaiConfig).
Variables (special_deductions_monthly : Q) (si_base hf_rate hf_base : option Q).
Variable prev_withheld_tax : Q.

(** What the locals are when the engine gets as far as its [return]. *)
Lemma takehome_locals_inv (cumulative_prev_pay : option (list Q)) (l : Locals.t) :
  takehome_locals gross_salary month_index cfg special_deductions_monthly
    si_base hf_rate hf_base cumulative_prev_pay prev_withheld_tax = Returns l ->
  let c := cfg_or_default cfg in
  history gross_salary month_index c si_base hf_rate hf_base cumulative_prev_pay
    = Returns (Locals.cum_income l, Locals.prev_si_total l, Locals.prev_hf_total l) /\
  Locals.si l = calc_employee_social gross_salary c si_base /\
  Locals.hf l = calc_housing_fund gross_salary c hf_rate hf_base /\
  Locals.cum_si l = Locals.prev_si_total l + SI.total (Locals.si l) /\
  Locals.cum_hf l = Locals.prev_hf_total l + HF.amount (Locals.hf l) /\
  Locals.cum_standard l = standard_deduction_monthly c * inject_Z month_index /\
  Locals.cum_special l = special_deductions_monthly * inject_Z month_index /\
  Locals.cum_taxable l =
    Locals.cum_income l - Locals.cum_si l - Locals.cum_hf l
    - Locals.cum_standard l - Locals.cum_special l /\
  Locals.cum_tax_payable l = _tax_on_cumulative_taxable (Locals.cum_taxable l) c /\
  Locals.tax_this_month l = py_max 0 (Locals.cum_tax_payable l - prev_withheld_tax) /\
  Locals.takehome l =
    gross_salary - SI.total (Locals.si l) - HF.amount (Locals.hf l)
    - Locals.tax_this_month l.
Proof.
  unfold takehome_locals.
  destruct (history gross_salary month_index (cfg_or_default cfg) si_base
              hf_rate hf_base cumulative_prev_pay) as [[[ci ps] ph] | e];
    cbn [bind]; intro H; [ | discriminate H].
  injection H as <-. cbn. repeat split.
Qed.

Lemma takehome_shanghai_inv (cumulative_prev_pay : option (list Q)) (r : Result.t) :
  takehome_shanghai gross_salary month_index cfg special_deductions_monthly
    si_base hf_rate hf_base cumulative_prev_pay prev_withheld_tax = Returns r ->
  exists l,
    takehome_locals gross_salary month_index cfg special_deductions_monthly
      si_base hf_rate hf_base cumulative_prev_pay prev_withheld_tax = Returns l /\
    r = result_of_locals gross_salary month_index (cfg_or_default cfg)
          special_deductions_monthly l.
Proof.
  unfold takehome_shanghai.
  destruct (takehome_locals gross_salary month_index cfg
              special_deductions_monthly si_base hf_rate hf_base
              cumulative_prev_pay prev_withheld_tax) as [l | e];
    cbn [bind]; intro H; [ | discriminate H].
  injection H as <-. exists l. split; reflexivity.
Qed.

(** The length test of line 110, as it decides the outcome of [history]. *)
Lemma history_some (c : ShanghaiConfig) (prev_pay : list Q) :
  (Z.of_nat (List.length prev_pay) <> (month_index - 1)%Z /\
   history gross_salary month_index c si_base hf_rate hf_base (Some prev_pay)
     = Raises length_error)
  \/
  (Z.of_nat (List.length prev_pay) = (month_index - 1)%Z /\
   history gross_salary month_index c si_base hf_rate hf_base (Some prev_pay)
     = Returns
         (py_sum prev_pay + gross_salary,
          py_sum (map (fun s => SI.total (calc_employee_social s c si_base)) prev_pay),
          py_sum (map (fun s => HF.amount (calc_housing_fund s c hf_rate hf_base)) prev_pay))).
Proof.
  unfold history.
  destruct (Z.eqb_spec (Z.of_nat (List.length prev_pay)) (month_index - 1)) as [E | E];
    cbn [negb]; [right | left]; split; auto.
Qed.


(** C10.  Leaving the configuration out (passing [None]) gives the same
    outcome, field for field, as passing the configuration that
    [default_config()] builds, whatever the other arguments are. *)
Theorem omitted_cfg_is_default_config (cumulative_prev_pay : option (list Q)) :
  takehome_shanghai gross_salary month_index None special_deductions_monthly
    si_base hf_rate hf_base cumulative_prev_pay prev_withheld_tax
  = takehome_shanghai gross_salary month_index (Some default_config)
      special_deductions_monthly si_base hf_rate hf_base cumulative_prev_pay
      prev_withheld_tax.
Proof. reflexivity. Qed.

(** C2.  When a list of prior months' pay is supplied, the engine raises the
    validation error exactly when the length of the list differs from
    [month_index - 1], and it returns a result record exactly when the
    length equals [month_index - 1]; a call that raises carries no record.
    This holds for every month index, so in particular for every month
    index from 1 up. *)
Theorem prev_pay_length_validation (prev_pay : list Q) :
  let call :=
    takehome_shanghai gross_salary month_index cfg special_deductions_monthly
      si_base hf_rate hf_base (Some prev_pay) prev_withheld_tax in
  (call = Raises length_error
   <-> Z.of_nat (List.length prev_pay) <> (month_index - 1)%Z) /\
  ((exists r, call = Returns r)
   <-> Z.of_nat (List.length prev_pay) = (month_index - 1)%Z).
Proof.
  cbv zeta. unfold takehome_shanghai, takehome_locals.
  destruct (history_some (cfg_or_default cfg) prev_pay) as [[E H] | [E H]];
    rewrite H; cbn [bind].
  - split; split; intro A.
    + exact E.
    + reflexivity.
    + destruct A as [r A]. discriminate A.
    + contradiction.
  - split; split; intro A.
    + discriminate A.
    + contradiction.
    + exact E.
    + eexists. reflexivity.
Qed.

(** C3.  Whenever the engine returns, the tax of the month is the larger of
    zero and the cumulative tax payable less the tax already withheld; so it
    is never negative, however large the tax already withheld is. *)
Theorem tax_this_month_nonnegative
    (cumulative_prev_pay : option (list Q)) (r : Result.t) :
  takehome_shanghai gross_salary month_index cfg special_deductions_monthly
    si_base hf_rate hf_base cumulative_prev_pay prev_withheld_tax = Returns r ->
  0 <= Result.tax_this_month r /\
  Result.tax_this_month r
  == Qmax 0 (Result.cumulative_tax_payable r - prev_withheld_tax).
Proof.
  intro H. apply takehome_shanghai_inv in H. destruct H as (l & Hl & ->).
  apply takehome_locals_inv in Hl. cbv zeta in Hl.
  destruct Hl as (_ & _ & _ & _ & _ & _ & _ & _ & _ & Htax & _).
  cbn [result_of_locals Result.tax_this_month Result.cumulative_tax_payable].
  rewrite Htax. split.
  - apply py_max_lower.
  - apply py_max_Qmax.
Qed.

(** C9.  Whenever the engine returns, the reported year-to-date taxable
    income is the larger of zero and the internal cumulative taxable income,
    which is cumulative income less cumulative social insurance, cumulative
    housing fund, cumulative standard deduction and cumulative special
    deduction; the reported figure is never negative. *)
Theorem reported_taxable_income_clamped
    (cumulative_prev_pay : option (list Q)) (r : Result.t) :
  takehome_shanghai gross_salary month_index cfg special_deductions_monthly
    si_base hf_rate hf_base cumulative_prev_pay prev_withheld_tax = Returns r ->
  exists l,
    takehome_locals gross_salary month_index cfg special_deductions_monthly
      si_base hf_rate hf_base cumulative_prev_pay prev_withheld_tax = Returns l /\
    Result.cumulative_taxable_income r
    == Qmax 0 (Locals.cum_income l - Locals.cum_si l - Locals.cum_hf l
               - Locals.cum_standard l - Locals.cum_special l) /\
    0 <= Result.cumulative_taxable_income r.
Proof.
  intro H. apply takehome_shanghai_inv in H. destruct H as (l & Hl & ->).
  exists l. split; [exact Hl | ].
  apply takehome_locals_inv in Hl. cbv zeta in Hl.
  destruct Hl as (_ & _ & _ & _ & _ & _ & _ & Htaxable & _).
  cbn [result_of_locals Result.cumulative_taxable_income].
  rewrite Htaxable. split.
  - apply py_max_Qmax.
  - apply py_max_lower.
Qed.


End Engine.

(** ** Concrete calls *)

(** C4.  Gross salary 30000, month 1, default configuration (passed, or left
    out), housing-fund rate 0.07, no special deductions, no history and
    nothing withheld before: social insurance 3150, housing fund 2100,
    cumulative taxable income 19750, tax of the month 592.5, take-home pay
    24157.5, the take-home pay being the gross salary less the month's social
    insurance, housing fund and tax. *)
Theorem scenario_30000_month_1 :
  scenario_30000
    (takehome_shanghai 30000 1 (Some default_config) 0 None (Some 0.07) None None 0)
  /\
  scenario_30000
    (takehome_shanghai 30000 1 None 0 None (Some 0.07) None None 0).
Proof.
  split; (eexists; split; [reflexivity | ]);
    repeat split; vm_compute; reflexivity.
Qed.

(** The second month of the same salary under the flat assumption, with the
    first month's 592.5 passed as already withheld. *)
Example scenario_30000_month_2 :
  exists r,
    takehome_shanghai 30000 2 None 0 None (Some 0.07) None None 592.5
    = Returns r /\
    Result.cumulative_taxable_income r == 39500 /\
    Result.cumulative_tax_payable r == 1430 /\
    Result.tax_this_month r == 837.5.
Proof.
  eexists. split; [reflexivity | ]. repeat split; vm_compute; reflexivity.
Qed.

(** Month 3 with two prior months returns; month 3 with one prior month
    raises. *)
Lemma prev_pay_length_validation_witness :
  (exists r,
     takehome_shanghai 30000 3 None 0 None None None (Some [30000; 28000]) 0
     = Returns r) /\
  takehome_shanghai 30000 3 None 0 None None None (Some [30000]) 0
  = Raises length_error.
Proof.
  split.
  - apply (proj2 (prev_pay_length_validation 30000 3 None 0 None None None 0
                    [30000; 28000])).
    reflexivity.
  - apply (proj1 (prev_pay_length_validation 30000 3 None 0 None None None 0
                    [30000])).
    vm_compute. discriminate.
Defined.

(** The first month of a 30000 salary owes 592.5; with 100000 already
    withheld the tax of the month is zero, not negative. *)
Lemma tax_this_month_nonnegative_witness :
  exists r,
    takehome_shanghai 30000 1 None 0 None (Some 0.07) None None 100000
    = Returns r /\
    Result.cumulative_tax_payable r == 592.5 /\
    Result.tax_this_month r == 0 /\
    0 <= Result.tax_this_month r.
Proof.
  eexists. split; [reflexivity | ].
  split; [vm_compute; reflexivity | ].
  split; [vm_compute; reflexivity | ].
  refine (proj1 (tax_this_month_nonnegative 30000 1 None 0 None (Some 0.07)
                   None 100000 None _ _)).
  reflexivity.
Defined.

(** A gross salary of 1000 is below the contribution floors and the standard
    deduction: the internal cumulative taxable income is negative and the
    reported one is zero. *)
Lemma reported_taxable_income_clamped_witness :
  exists r l,
    takehome_shanghai 1000 1 None 0 None None None None 0 = Returns r /\
    takehome_locals 1000 1 None 0 None None None None 0 = Returns l /\
    Locals.cum_taxable l < 0 /\
    Result.cumulative_taxable_income r == 0 /\
    0 <= Result.cumulative_taxable_income r.
Proof.
  eexists. eexists.
  split; [reflexivity | ].
  split; [reflexivity | ].
  split; [vm_compute; reflexivity | ].
  split; [vm_compute; reflexivity | ].
  destruct (reported_taxable_income_clamped 1000 1 None 0 None None None 0 None
              _ eq_refl) as (l & _ & _ & H).
  exact H.
Defined.

(** * Further properties of the code *)

(** ** [_clamp] (lines 51-52) *)

Lemma clamp_between (x lo hi : Q) :
  lo <= hi -> lo <= _clamp x lo hi /\ _clamp x lo hi <= hi.
Proof.
  intro H. unfold _clamp, py_max, py_min. cmp_cases; lra.
Qed.

Lemma clamp_lower (x lo hi : Q) : lo <= _clamp x lo hi.
Proof. unfold _clamp. apply py_max_lower. Qed.

Lemma clamp_mono (x y lo hi : Q) :
  x <= y -> _clamp x lo hi <= _clamp y lo hi.
Proof.
  intro H. unfold _clamp, py_max, py_min. cmp_cases; lra.
Qed.

(** With ordered bounds the result lies between them. *)
Theorem clamp_range (x lo hi : Q) :
  lo <= hi -> lo <= _clamp x lo hi /\ _clamp x lo hi <= hi.
Proof. exact (clamp_between x lo hi). Qed.

Lemma clamp_range_witness :
  7384 <= 36921 /\
  7384 <= _clamp 125000 7384 36921 /\ _clamp 125000 7384 36921 <= 36921.
Proof.
  split.
  - vm_compute; discriminate.
  - apply (clamp_range 125000 7384 36921). vm_compute; discriminate.
Defined.

(** The lower bound wins: the result is never below [lo], and when the
    bounds are crossed ([hi < lo]) it is [lo] for every input. *)
Theorem clamp_crossed_bounds (x lo hi : Q) :
  lo <= _clamp x lo hi /\ (hi < lo -> _clamp x lo hi = lo).
Proof.
  unfold _clamp, py_max, py_min. split.
  - cmp_cases; lra.
  - intro H. cmp_cases; try reflexivity; lra.
Qed.

Lemma clamp_crossed_bounds_witness :
  5 < 10 /\ _clamp 7 10 5 = 10 /\ _clamp 100 10 5 = 10 /\ _clamp 0 10 5 = 10.
Proof.
  assert (H : 5 < 10) by reflexivity.
  split; [exact H | ].
  split; [ | split].
  - apply (proj2 (clamp_crossed_bounds 7 10 5)). exact H.
  - apply (proj2 (clamp_crossed_bounds 100 10 5)). exact H.
  - apply (proj2 (clamp_crossed_bounds 0 10 5)). exact H.
Defined.

(** A larger input never gives a smaller result, whatever the bounds. *)
Theorem clamp_monotone (x y lo hi : Q) :
  x <= y -> _clamp x lo hi <= _clamp y lo hi.
Proof. exact (clamp_mono x y lo hi). Qed.

Lemma clamp_monotone_witness :
  1000 <= 30000 /\ _clamp 1000 7384 36921 <= _clamp 30000 7384 36921.
Proof.
  split.
  - vm_compute; discriminate.
  - apply (clamp_monotone 1000 30000 7384 36921). vm_compute; discriminate.
Defined.

Lemma clamp_idempotent (x lo hi : Q) :
  _clamp (_clamp x lo hi) lo hi == _clamp x lo hi.
Proof.
  unfold _clamp, py_max, py_min. cmp_cases; lra.
Qed.

Lemma clamp_proper (x y lo hi : Q) :
  x == y -> _clamp x lo hi == _clamp y lo hi.
Proof.
  intro H. unfold _clamp, py_max, py_min. cmp_cases; lra.
Qed.

(** ** Contribution calculators (lines 54-71) *)

(** The base a calculator reports can be passed back as the override: the
    contribution record is the same, for the social insurance and for the
    housing fund, whatever the gross salary of the second call. *)
Theorem reported_base_as_override
    (cfg : ShanghaiConfig) (gross gross' : Q) (si_base hf_rate hf_base : option Q) :
  let si := calc_employee_social gross cfg si_base in
  let hf := calc_housing_fund gross cfg hf_rate hf_base in
  SI_equiv (calc_employee_social gross' cfg (Some (SI.base si))) si /\
  HF_equiv (calc_housing_fund gross' cfg hf_rate (Some (HF.base hf))) hf.
Proof.
  cbv zeta. unfold SI_equiv, HF_equiv, calc_employee_social, calc_housing_fund.
  cbn [SI.base SI.pension SI.medical SI.unemployment SI.total
       HF.rate HF.base HF.amount or_else].
  pose proof (clamp_idempotent (or_else si_base gross) (si_floor cfg) (si_cap cfg)) as A.
  pose proof (clamp_idempotent (or_else hf_base gross) (hf_floor cfg) (hf_cap cfg)) as B.
  repeat split; try rewrite A; try rewrite B; reflexivity.
Qed.

(** With ordered bounds and rates that are not negative, the social
    insurance total lies between the total the same three products give at
    the floor and the one they give at the cap, for every gross salary and
    override. *)
Theorem social_total_bounds
    (cfg : ShanghaiConfig) (gross : Q) (si_base : option Q) :
  si_floor cfg <= si_cap cfg ->
  0 <= pension_rate_emp cfg ->
  0 <= medical_rate_emp cfg ->
  0 <= unemployment_rate_emp cfg ->
  let total := SI.total (calc_employee_social gross cfg si_base) in
  si_floor cfg * pension_rate_emp cfg + si_floor cfg * medical_rate_emp cfg
  + si_floor cfg * unemployment_rate_emp cfg <= total /\
  total
  <= si_cap cfg * pension_rate_emp cfg + si_cap cfg * medical_rate_emp cfg
     + si_cap cfg * unemployment_rate_emp cfg.
Proof.
  intros Hb Hp Hm Hu. cbv zeta. unfold calc_employee_social.
  cbn [SI.total].
  destruct (clamp_between (or_else si_base gross) _ _ Hb) as [L U].
  set (b := _clamp (or_else si_base gross) (si_floor cfg) (si_cap cfg)) in *.
  split; nra.
Qed.

(** Under the default configuration a gross salary of 125000 pays the
    social insurance of the cap, 3876.705. *)
Lemma social_total_bounds_witness :
  775.32 <= SI.total (calc_employee_social 125000 default_config None) /\
  SI.total (calc_employee_social 125000 default_config None) <= 3876.705.
Proof.
  assert (Hb : si_floor default_config <= si_cap default_config)
    by (vm_compute; discriminate).
  assert (Hp : 0 <= pension_rate_emp default_config)
    by (vm_compute; discriminate).
  assert (Hm : 0 <= medical_rate_emp default_config)
    by (vm_compute; discriminate).
  assert (Hu : 0 <= unemployment_rate_emp default_config)
    by (vm_compute; discriminate).
  destruct (social_total_bounds default_config 125000 None Hb Hp Hm Hu)
    as (L & U).
  cbv zeta in L, U. split.
  - eapply Qle_trans; [ | exact L]. vm_compute; discriminate.
  - eapply Qle_trans; [exact U | ]. vm_compute; discriminate.
Defined.



(** Without a base override and with rates that are not negative, a higher
    gross salary never lowers either contribution. *)
Theorem contributions_monotone_in_gross
    (cfg : ShanghaiConfig) (gross gross' : Q) (hf_rate : option Q) :
  0 <= pension_rate_emp cfg ->
  0 <= medical_rate_emp cfg ->
  0 <= unemployment_rate_emp cfg ->
  0 <= or_else hf_rate (default_hf_rate_emp cfg) ->
  gross <= gross' ->
  SI.total (calc_employee_social gross cfg None)
  <= SI.total (calc_employee_social gross' cfg None) /\
  HF.amount (calc_housing_fund gross cfg hf_rate None)
  <= HF.amount (calc_housing_fund gross' cfg hf_rate None).
Proof.
  intros Hp Hm Hu Hr Hg. unfold calc_employee_social, calc_housing_fund.
  cbn [SI.total HF.amount or_else].
  pose proof (clamp_mono gross gross' (si_floor cfg) (si_cap cfg) Hg) as A.
  pose proof (clamp_mono gross gross' (hf_floor cfg) (hf_cap cfg) Hg) as B.
  set (a := _clamp gross (si_floor cfg) (si_cap cfg)) in *.
  set (a' := _clamp gross' (si_floor cfg) (si_cap cfg)) in *.
  set (b := _clamp gross (hf_floor cfg) (hf_cap cfg)) in *.
  set (b' := _clamp gross' (hf_floor cfg) (hf_cap cfg)) in *.
  assert (E : match hf_rate with
              | Some r => r
              | None => default_hf_rate_emp cfg
              end = or_else hf_rate (default_hf_rate_emp cfg))
    by (destruct hf_rate; reflexivity).
  rewrite E. set (r := or_else hf_rate (default_hf_rate_emp cfg)) in *.
  split; nra.
Qed.

Lemma contributions_monotone_in_gross_witness :
  10000 <= 20000 /\
  SI.total (calc_employee_social 10000 default_config None)
  <= SI.total (calc_employee_social 20000 default_config None) /\
  HF.amount (calc_housing_fund 10000 default_config None None)
  <= HF.amount (calc_housing_fund 20000 default_config None None).
Proof.
  split; [vm_compute; discriminate | ].
  apply (contributions_monotone_in_gross default_config 10000 20000 None);
    vm_compute; discriminate.
Defined.

(** ** [_tax_on_cumulative_taxable] on any bracket table (lines 73-79) *)

Lemma scan_brackets_first_match (t : Q) (pre post : list Bracket.t) (b : Bracket.t) :
  Forall (fun p => Bracket.within t (Bracket.up_to p) = false) pre ->
  Bracket.within t (Bracket.up_to b) = true ->
  scan_brackets t (pre ++ b :: post) = Bracket.formula b t.
Proof.
  intros Hpre Hb. induction Hpre as [| p pre Hp _ IH]; cbn [app scan_brackets].
  - rewrite Hb. reflexivity.
  - rewrite Hp. exact IH.
Qed.

Lemma scan_brackets_no_match (t : Q) (bs : list Bracket.t) :
  Forall (fun p => Bracket.within t (Bracket.up_to p) = false) bs ->
  scan_brackets t bs = t * 0.45 - 181920.
Proof.
  intro H. induction H as [| p bs Hp _ IH]; cbn [scan_brackets].
  - reflexivity.
  - rewrite Hp. exact IH.
Qed.

Lemma scan_brackets_unbounded (t : Q) (bs : list Bracket.t) :
  Exists (fun p => Bracket.up_to p = Bracket.Inf) bs ->
  exists b,
    In b bs /\ Bracket.within t (Bracket.up_to b) = true /\
    scan_brackets t bs = Bracket.formula b t.
Proof.
  intro H. induction bs as [| p bs IH]; [inversion H | ].
  cbn [scan_brackets].
  destruct (Bracket.within t (Bracket.up_to p)) eqn:E.
  - exists p. split; [left; reflexivity | split; [exact E | reflexivity]].
  - inversion H as [? ? Hp | ? ? Hbs]; subst.
    + rewrite Hp in E. discriminate E.
    + destruct (IH Hbs) as (b & Hin & Hw & Hs).
      exists b. split; [right; exact Hin | split; assumption].
Qed.

(** The tax is computed with the first bracket, in table order, whose bound
    is at least the income clamped at zero; later brackets are not looked
    at, whatever their bounds. *)
Theorem tax_uses_first_matching_bracket
    (cfg : ShanghaiConfig) (cum_taxable : Q)
    (pre post : list Bracket.t) (b : Bracket.t) :
  brackets cfg = pre ++ b :: post ->
  Forall (fun p => Bracket.within (py_max 0 cum_taxable) (Bracket.up_to p) = false) pre ->
  Bracket.within (py_max 0 cum_taxable) (Bracket.up_to b) = true ->
  _tax_on_cumulative_taxable cum_taxable cfg
  = py_max 0 cum_taxable * Bracket.rate b - Bracket.quick b.
Proof.
  intros E Hpre Hb. unfold _tax_on_cumulative_taxable. rewrite E.
  apply scan_brackets_first_match; assumption.
Qed.

(** An income of 50000 passes the first bracket of the default table and is
    taxed with the second: 50000 * 0.10 - 2520. *)
Lemma tax_uses_first_matching_bracket_witness :
  _tax_on_cumulative_taxable 50000 default_config = 50000 * 0.10 - 2520.
Proof.
  apply (tax_uses_first_matching_bracket default_config 50000
           [Bracket.mk (Bracket.Finite 36000) 0.03 0]
           [Bracket.mk (Bracket.Finite 300000) 0.20 16920;
            Bracket.mk (Bracket.Finite 420000) 0.25 31920;
            Bracket.mk (Bracket.Finite 660000) 0.30 52920;
            Bracket.mk (Bracket.Finite 960000) 0.35 85920;
            Bracket.mk Bracket.Inf 0.45 181920]
           (Bracket.mk (Bracket.Finite 144000) 0.10 2520)).
  - reflexivity.
  - repeat constructor.
  - reflexivity.
Defined.

(** When no bracket of the table has a bound that reaches the clamped
    income (an empty table, or a table without an unbounded bracket and an
    income above its last bound), the statement after the loop is the
    result: the clamped income times 0.45 less 181920, whatever the table's
    own rates are. *)
Theorem tax_without_matching_bracket (cfg : ShanghaiConfig) (cum_taxable : Q) :
  Forall (fun p => Bracket.within (py_max 0 cum_taxable) (Bracket.up_to p) = false)
    (brackets cfg) ->
  _tax_on_cumulative_taxable cum_taxable cfg
  = py_max 0 cum_taxable * 0.45 - 181920.
Proof.
  intro H. unfold _tax_on_cumulative_taxable.
  apply scan_brackets_no_match. exact H.
Qed.

(** A table made of the first default bracket alone: an income of 40000 is
    above its bound, and the result is 40000 * 0.45 - 181920, a negative
    tax. *)
Lemma tax_without_matching_bracket_witness :
  let cfg := config_with_brackets [Bracket.mk (Bracket.Finite 36000) 0.03 0] in
  _tax_on_cumulative_taxable 40000 cfg = 40000 * 0.45 - 181920 /\
  _tax_on_cumulative_taxable 40000 cfg < 0.
Proof.
  cbv zeta. split.
  - apply (tax_without_matching_bracket
             (config_with_brackets [Bracket.mk (Bracket.Finite 36000) 0.03 0])
             40000).
    repeat constructor.
  - reflexivity.
Defined.

(** A table that holds a bracket with the unbounded bound never reaches the
    statement after the loop: the tax is the formula of a bracket of the
    table whose bound is at least the clamped income. *)
Theorem tax_with_unbounded_bracket (cfg : ShanghaiConfig) (cum_taxable : Q) :
  Exists (fun p => Bracket.up_to p = Bracket.Inf) (brackets cfg) ->
  exists b,
    In b (brackets cfg) /\
    Bracket.within (py_max 0 cum_taxable) (Bracket.up_to b) = true /\
    _tax_on_cumulative_taxable cum_taxable cfg
    = py_max 0 cum_taxable * Bracket.rate b - Bracket.quick b.
Proof.
  intro H. unfold _tax_on_cumulative_taxable.
  destruct (scan_brackets_unbounded (py_max 0 cum_taxable) (brackets cfg) H)
    as (b & Hin & Hw & Hs).
  exists b. split; [exact Hin | split; [exact Hw | exact Hs]].
Qed.

Lemma tax_with_unbounded_bracket_witness :
  exists b,
    In b (brackets default_config) /\
    Bracket.within (py_max 0 2000000) (Bracket.up_to b) = true /\
    _tax_on_cumulative_taxable 2000000 default_config
    = py_max 0 2000000 * Bracket.rate b - Bracket.quick b.
Proof.
  apply (tax_with_unbounded_bracket default_config 2000000).
  cbn [brackets default_config default_brackets].
  do 6 apply Exists_cons_tl. apply Exists_cons_hd. reflexivity.
Defined.

(** ** [_tax_on_cumulative_taxable] on the default table *)

Lemma scan_default_brackets_nonneg (t : Q) :
  0 <= t -> 0 <= scan_brackets t default_brackets.
Proof.
  intro H. unfold default_brackets.
  cbn [scan_brackets Bracket.within Bracket.up_to].
  repeat (cmp_case; cbv iota);
    unfold Bracket.formula; cbn [Bracket.rate Bracket.quick]; lra.
Qed.

(** Under the default configuration the cumulative tax payable is never
    negative, for any cumulative taxable income. *)
Theorem default_tax_nonnegative (cum_taxable : Q) :
  0 <= _tax_on_cumulative_taxable cum_taxable default_config.
Proof.
  unfold _tax_on_cumulative_taxable.
  apply scan_default_brackets_nonneg. apply py_max_lower.
Qed.

(** ** [sum] over the history *)


(** ** [takehome_shanghai] (lines 81-143) *)

Section EngineFacts.

Variables (gross_salary : Q) (month_index : Z) (cfg : option ShanghaiConfig).
Variables (special_deductions_monthly : Q) (si_base hf_rate hf_base : option Q).
Variable prev_withheld_tax : Q.


(** A month index of zero or less makes every supplied list, the empty one
    included, the wrong length: the call raises. *)
Theorem nonpositive_month_rejects_every_list (prev_pay : list Q) :
  (month_index <= 0)%Z ->
  takehome_shanghai gross_salary month_index cfg special_deductions_monthly
    si_base hf_rate hf_base (Some prev_pay) prev_withheld_tax
  = Raises length_error.
Proof.
  intro HN. unfold takehome_shanghai, takehome_locals.
  destruct (history_some gross_salary month_index si_base hf_rate hf_base
              (cfg_or_default cfg) prev_pay) as [[E H] | [E H]].
  - rewrite H. reflexivity.
  - exfalso. lia.
Qed.


End EngineFacts.

Section MonthByMonth.

Variables (gross_salary : Q) (month_index : Z) (cfg : option ShanghaiConfig).
Variables (special_deductions_monthly : Q) (si_base hf_rate hf_base : option Q).


End MonthByMonth.

(** ** Take-home pay against gross salary *)

Section TakeHome.

Variables (gross_salary : Q) (month_index : Z) (cfg : option ShanghaiConfig).
Variables (special_deductions_monthly : Q) (si_base hf_rate hf_base : option Q).
Variable prev_withheld_tax : Q.

(** When the floors and the rates in force are not negative, neither
    contribution is negative and the take-home pay never exceeds the gross
    salary. *)
Theorem take_home_at_most_gross
    (cumulative_prev_pay : option (list Q)) (r : Result.t) :
  let c := cfg_or_default cfg in
  0 <= si_floor c -> 0 <= hf_floor c ->
  0 <= pension_rate_emp c -> 0 <= medical_rate_emp c ->
  0 <= unemployment_rate_emp c ->
  0 <= or_else hf_rate (default_hf_rate_emp c) ->
  takehome_shanghai gross_salary month_index cfg special_deductions_monthly
    si_base hf_rate hf_base cumulative_prev_pay prev_withheld_tax = Returns r ->
  0 <= SI.total (Result.social_insurance r) /\
  0 <= HF.amount (Result.housing_fund r) /\
  Result.take_home r <= gross_salary.
Proof.
  intros c Hsf Hhf Hp Hm Hu Hr H.
  apply takehome_shanghai_inv in H. destruct H as (l & Hl & ->).
  apply takehome_locals_inv in Hl. cbv zeta in Hl. fold c in Hl.
  destruct Hl as (_ & Esi & Ehf & _ & _ & _ & _ & _ & _ & Etax & Etake).
  cbn [result_of_locals Result.social_insurance Result.housing_fund
       Result.take_home].
  rewrite Etake, Etax, Esi, Ehf.
  unfold calc_employee_social, calc_housing_fund. cbn [SI.total HF.amount].
  pose proof (clamp_lower (or_else si_base gross_salary) (si_floor c) (si_cap c)) as A.
  pose proof (clamp_lower (or_else hf_base gross_salary) (hf_floor c) (hf_cap c)) as B.
  set (a := _clamp (or_else si_base gross_salary) (si_floor c) (si_cap c)) in *.
  set (b := _clamp (or_else hf_base gross_salary) (hf_floor c) (hf_cap c)) in *.
  assert (E : match hf_rate with
              | Some r => r
              | None => default_hf_rate_emp c
              end = or_else hf_rate (default_hf_rate_emp c))
    by (destruct hf_rate; reflexivity).
  rewrite E. set (rt := or_else hf_rate (default_hf_rate_emp c)) in *.
  set (tx := py_max 0 _).
  assert (T : 0 <= tx) by apply py_max_lower.
  assert (S : 0 <= a * pension_rate_emp c + a * medical_rate_emp c
                   + a * unemployment_rate_emp c) by nra.
  assert (F : 0 <= b * rt) by nra.
  split; [exact S | split; [exact F | lra]].
Qed.

(** Under the default configuration, when nothing (or a negative amount) is
    passed as already withheld, the floor at zero never acts: the tax of the
    month is the whole cumulative tax payable less the amount passed. *)
Theorem nothing_withheld_pays_cumulative_tax
    (cumulative_prev_pay : option (list Q)) (r : Result.t) :
  prev_withheld_tax <= 0 ->
  takehome_shanghai gross_salary month_index None special_deductions_monthly
    si_base hf_rate hf_base cumulative_prev_pay prev_withheld_tax = Returns r ->
  Result.tax_this_month r
  == Result.cumulative_tax_payable r - prev_withheld_tax.
Proof.
  intros Hp H.
  apply takehome_shanghai_inv in H. destruct H as (l & Hl & ->).
  apply takehome_locals_inv in Hl. cbv zeta in Hl.
  destruct Hl as (_ & _ & _ & _ & _ & _ & _ & _ & Epay & Etax & _).
  cbn [result_of_locals Result.tax_this_month Result.cumulative_tax_payable].
  rewrite Etax.
  assert (N : 0 <= Locals.cum_tax_payable l).
  { rewrite Epay. unfold _tax_on_cumulative_taxable.
    apply scan_default_brackets_nonneg. apply py_max_lower. }
  unfold py_max. cmp_cases; lra.
Qed.

End TakeHome.

(** ** The engine properties at concrete calls *)

Lemma nonpositive_month_rejects_every_list_witness :
  (0 <= 0)%Z /\
  takehome_shanghai 30000 0 None 0 None None None (Some []) 0
  = Raises length_error.
Proof.
  split; [lia | ].
  apply (nonpositive_month_rejects_every_list 30000 0 None 0 None None None 0 []).
  lia.
Defined.


Lemma take_home_at_most_gross_witness :
  exists r,
    takehome_shanghai 30000 1 None 0 None None None None 0 = Returns r /\
    Result.take_home r <= 30000.
Proof.
  eexists. split; [reflexivity | ].
  refine (proj2 (proj2 (take_home_at_most_gross 30000 1 None 0 None None None 0
                          None _ _ _ _ _ _ _ eq_refl)));
    vm_compute; discriminate.
Defined.

(** Month 2 of a 30000 salary with nothing passed as withheld: the tax of
    the month is the whole cumulative 1430. *)
Lemma nothing_withheld_pays_cumulative_tax_witness :
  exists r,
    takehome_shanghai 30000 2 None 0 None (Some 0.07) None None 0 = Returns r /\
    Result.tax_this_month r == 1430.
Proof.
  eexists. split; [reflexivity | ].
  pose proof (nothing_withheld_pays_cumulative_tax 30000 2 0 None (Some 0.07)
                None 0 None _ ltac:(vm_compute; discriminate) eq_refl) as A.
  rewrite A. vm_compute. reflexivity.
Defined.



(** ** Monotone tax on every well-formed table *)





(** * Where rounding decides: the program on binary64 *)

Section Binary64.

Import PrimFloat.






(** C6, as the claim states it, fails on binary64.  At the bound 660000 the
    fifth bracket gives [660000 * 0.30 - 52920 = 145080.0] and the sixth
    gives [660000 * 0.35 - 85920 = 145079.99999999997]. *)
Lemma default_brackets_not_exactly_continuous_on_binary64 :
  exists b5 b6,
    nth_error (adjacent (B64.brackets B64.default_config)) 4 = Some (b5, b6) /\
    B64.Bracket.up_to b5 = 660000%float /\
    B64.Bracket.formula b5 660000 = 145080%float /\
    B64.Bracket.formula b6 660000 = 145079.99999999997%float /\
    PrimFloat.eqb (B64.Bracket.formula b5 660000) (B64.Bracket.formula b6 660000)
    = false.
Proof.
  do 2 eexists. split; [reflexivity | ].
  repeat split; vm_compute; reflexivity.
Qed.

(** C6, amended.  In the default bracket table every two neighbouring
    brackets agree at the bound where they meet, up to rounding: as exact
    decimals the two values are equal at all six bounds; on binary64 they
    are the same float at five bounds and one unit in the last place
    (2^-35) apart at 660000. *)
Theorem default_brackets_continuous_up_to_rounding :
  (List.length (adjacent (brackets default_config)) = 6%nat /\
   Forall continuous_at (adjacent (brackets default_config)))
  /\
  map B64.gap (adjacent (B64.brackets B64.default_config))
  = [0; 0; 0; 0; 0x1p-35; 0]%float
  /\
  Forall (fun p => PrimFloat.leb (B64.gap p) 0x1p-35 = true)
    (adjacent (B64.brackets B64.default_config)).
Proof.
  split; [exact default_brackets_continuous | ].
  split; [vm_compute; reflexivity | ].
  cbn [B64.brackets B64.default_config B64.default_brackets adjacent].
  repeat constructor.
Qed.

End Binary64.
